(** * ChamaControl back-end routes: the /hello and /noticias handlers

    A shallow embedding of the two route files of the back-end,
    [src/backend/routes/index.js] and its sibling copy [src/unnamed/part_000].
    Both register the same routes on an Express router; they differ in the
    inline handler of [GET /noticias], which proxies a search to the GNews API:
    the first builds the outbound URL by string interpolation, the second hands
    Axios a base URL and a [params] object and sets cache-disabling headers
    before relaying the answer.

    The handlers are written in a small state-and-exception monad over a
    [world] that holds what a handler can touch: [process.env], the answer the
    network gives to [axios.get], the Express response object [res], the lines
    written with [console.error], and the list of outbound calls made so far.

    The seven [/focus...] routes of both files are bound to methods of
    [FocusController], which lives outside these two files: the route table
    names them, their bodies are not part of this development. *)

From Stdlib Require Import ZArith String Ascii List Bool Lia.
From stdpp Require Import base option strings gmap pretty.

Set Warnings "-register-all".
Local Open Scope Z_scope.

(** ** JavaScript values *)

Module JS.

(** The values that flow through the handlers: query-string values as
    Express parses them (strings, arrays, nested objects), the entries of
    the [params] object, header values and JSON payloads.  Numbers are the
    integers the handlers use (10, 0, 500 and statuses). *)
Inductive value : Type :=
| VUndefined
| VNull
| VBool (b : bool)
| VNum (n : Z)
| VStr (s : string)
| VArr (elems : list value)
| VObj (props : list (string * value)).

(** [if (v)], [!v] and [v ? a : b] test this. *)
Definition truthy (v : value) : bool :=
  match v with
  | VUndefined | VNull => false
  | VBool b => b
  | VNum n => negb (n =? 0)
  | VStr s => negb (String.eqb s "")
  | VArr _ | VObj _ => true
  end.

Fixpoint join (sep : string) (l : list string) : string :=
  match l with
  | [] => ""
  | [s] => s
  | s :: r => s +:+ sep +:+ join sep r
  end.

(** Whether an object has an own property called [name]. *)
Definition has_own (name : string) (props : list (string * value)) : bool :=
  existsb (λ p, String.eqb (fst p) name) props.

(** What a template literal [`${v}`] interpolates, [None] when the
    conversion throws a TypeError.  An array is joined with commas, its
    undefined and null elements left empty.  An object is converted by its
    [toString]: the inherited one gives [[object Object]]; an own property of
    that name holds a value, never a function, and then neither it nor
    [valueOf] yields a primitive. *)
Fixpoint toString (v : value) : option string :=
  match v with
  | VUndefined => Some "undefined"
  | VNull => Some "null"
  | VBool true => Some "true"
  | VBool false => Some "false"
  | VNum n => Some (pretty n)
  | VStr s => Some s
  | VArr elems =>
      join "," <$>
        (fix each (l : list value) : option (list string) :=
           match l with
           | [] => Some []
           | e :: r =>
               match match e with
                     | VUndefined | VNull => Some ""
                     | _ => toString e
                     end with
               | Some s => cons s <$> each r
               | None => None
               end
           end) elems
  | VObj props =>
      if has_own "toString" props then None else Some "[object Object]"
  end.

(** The double-quote character, for string constants that contain it. *)
Definition dq : string := String (ascii_of_nat 34) "".

End JS.
Import JS.

(** ** Axios: requests, responses, errors *)

(** [axios.get(url)] and [axios.get(url, { params })]. *)
Record axios_request : Type := AxiosRequest {
  req_url : string;
  req_params : option (gmap string value)
}.

(** What a fulfilled [axios.get] yields, and what [error.response] holds. *)
Record axios_response : Type := AxiosResponse {
  data : value;
  status : Z;
  headers : value
}.

(** A thrown value as the catch blocks read it: [error.message],
    [error.response] and [error.request].  [new Error(msg)] has only the
    message; an Axios error for a non-2xx answer has both [response] and
    [request], one for a request that got no answer has only [request]. *)
Record js_error : Type := JsError {
  message : string;
  response : option axios_response;
  request : option value
}.

Definition new_Error (msg : string) : js_error :=
  {| message := msg; response := None; request := None |}.

(** The TypeError of a failed conversion to a string. *)
Definition conversion_TypeError : js_error :=
  new_Error "Cannot convert object to primitive value".

(** The promise returned by [axios.get] once settled. *)
Inductive settled : Type :=
| Fulfilled (r : axios_response)
| Rejected (e : js_error).

(** ** Express: request and response objects *)

(** [req.query] *)
Record express_request : Type := ExpressRequest {
  query : gmap string value
}.

Inductive sent_body : Type :=
| SentText (s : string)      (* res.send(string) *)
| SentJson (v : value).      (* res.json(value) *)

(** The response object [res]: status code (200 until [res.status] is
    called), the headers set with [res.setHeader], and the body once sent. *)
Record express_response : Type := ExpressResponse {
  statusCode : Z;
  res_headers : gmap string value;
  res_body : option sent_body
}.

Definition fresh_response : express_response :=
  {| statusCode := 200; res_headers := ∅; res_body := None |}.

(** ** The world of a handler and its monad *)

Record world : Type := World {
  process_env : gmap string string;
  network : axios_request → settled;
  res : express_response;
  console : list (list value);
  outbound : list axios_request
}.

Definition initial_world (env : gmap string string)
    (net : axios_request → settled) : world :=
  {| process_env := env; network := net; res := fresh_response;
     console := []; outbound := [] |}.

Inductive completion (A : Type) : Type :=
| Normal (a : A)
| Throw (e : js_error).
Arguments Normal {A} a.
Arguments Throw {A} e.

Definition M (A : Type) : Type := world → completion A * world.

#[global] Instance M_ret : MRet M := λ A a w, (Normal a, w).
#[global] Instance M_bind : MBind M := λ A B f m w,
  match m w with
  | (Normal a, w') => f a w'
  | (Throw e, w') => (Throw e, w')
  end.

Definition throw {A} (e : js_error) : M A := λ w, (Throw e, w).

(** [try { body } catch (error) { handler }] *)
Definition try_catch {A} (body : M A) (handler : js_error → M A) : M A :=
  λ w, match body w with
       | (Normal a, w') => (Normal a, w')
       | (Throw e, w') => handler e w'
       end.

Definition set_res (f : express_response → express_response) : M unit :=
  λ w, (Normal tt,
        {| process_env := process_env w; network := network w; res := f (res w);
           console := console w; outbound := outbound w |}).

(** [process.env[name]] *)
Definition getenv (name : string) : M value :=
  λ w, (Normal (from_option VStr VUndefined (process_env w !! name)), w).

(** [console.error(...args)] *)
Definition console_error (args : list value) : M unit :=
  λ w, (Normal tt,
        {| process_env := process_env w; network := network w; res := res w;
           console := console w ++ [args]; outbound := outbound w |}).

(** [await axios.get(...)]: the call is recorded, then the promise either
    yields its response or throws its error. *)
Definition axios_get (r : axios_request) : M axios_response :=
  λ w, let w' := {| process_env := process_env w; network := network w;
                    res := res w; console := console w;
                    outbound := outbound w ++ [r] |} in
       match network w r with
       | Fulfilled resp => (Normal resp, w')
       | Rejected e => (Throw e, w')
       end.

(** [res.status(code)] *)
Definition res_status (code : Z) : M unit :=
  set_res (λ r, {| statusCode := code; res_headers := res_headers r;
                   res_body := res_body r |}).

(** [res.setHeader(name, value)] *)
Definition res_setHeader (name : string) (v : value) : M unit :=
  set_res (λ r, {| statusCode := statusCode r;
                   res_headers := <[name := v]> (res_headers r);
                   res_body := res_body r |}).

(** [res.send(text)] *)
Definition res_send (text : string) : M unit :=
  set_res (λ r, {| statusCode := statusCode r; res_headers := res_headers r;
                   res_body := Some (SentText text) |}).

(** [res.json(value)] *)
Definition res_json (v : value) : M unit :=
  set_res (λ r, {| statusCode := statusCode r; res_headers := res_headers r;
                   res_body := Some (SentJson v) |}).

(** A value interpolated into a template literal: the string, or the
    TypeError thrown. *)
Definition interpolated (text : option string) : M string :=
  match text with
  | Some s => mret s
  | None => throw conversion_TypeError
  end.

(** [req.query[name]] *)
Definition req_query (req : express_request) (name : string) : value :=
  default VUndefined (query req !! name).

(** ** Constants the two files share *)

(** The search expression sent as [q]. *)
Definition GNEWS_QUERY : string :=
  "queimadas AND (Amazônia OR floresta OR cerrado OR Pantanal OR Norte OR Sul OR Sudeste OR Nordeste OR Caatinga OR Pampa OR "
  +:+ dq +:+ "Mata Atlântica" +:+ dq +:+ " OR " +:+ dq +:+ "Centro-Oeste" +:+ dq
  +:+ " OR Brasil) NOT (" +:+ dq +:+ "LA" +:+ dq +:+ " OR " +:+ dq
  +:+ "Los Angeles" +:+ dq +:+ ")".

(** The message of the error thrown when the key is missing. *)
Definition MISSING_KEY : string :=
  "Chave da API de notícias não configurada no servidor.".

(** The object passed to [res.status(500).json]. *)
Definition FAILURE_BODY : value :=
  VObj [("error", VStr "Falha ao buscar notícias externas.")].

(** ** src/backend/routes/index.js *)

Module RoutesIndex.

(** [router.get('/hello', ...)] *)
Definition hello (req : express_request) : M unit :=
  res_send "Hello world".

(** Declared in the handler and not used: the URL spells [max=10] out. *)
Definition PAGE_SIZE : Z := 10.

(** [lastPublishedAt ? `&to=${lastPublishedAt}` : ""] *)
Definition dateFilter (lastPublishedAt : value) : option string :=
  if truthy lastPublishedAt
  then (λ s, "&to=" +:+ s) <$> toString lastPublishedAt
  else Some "".

(** The template literal bound to [url], its two holes filled. *)
Definition url_text (dateFilter token : string) : string :=
  "https://gnews.io/api/v4/search?q=" +:+ GNEWS_QUERY
  +:+ "&country=br&max=10" +:+ dateFilter
  +:+ "&token=" +:+ token.

(** [url] from the key and the cursor: [dateFilter] is built first, then
    the template literal of [url] interpolates it and the key. *)
Definition url (apiKey lastPublishedAt : value) : option string :=
  match dateFilter lastPublishedAt with
  | Some filter => url_text filter <$> toString apiKey
  | None => None
  end.

(** [router.get('/noticias', ...)]: the URL is assembled by interpolation. *)
Definition noticias (req : express_request) : M unit :=
  try_catch
    (apiKey ← getenv "GNEWS_API_KEY";
     if negb (truthy apiKey) then throw (new_Error MISSING_KEY)
     else
       let lastPublishedAt := req_query req "to" in
       url ← interpolated (url apiKey lastPublishedAt);
       response ← axios_get {| req_url := url; req_params := None |};
       res_json (data response))
    (λ error,
       console_error [VStr "Erro ao buscar notícias do GNews:";
                      VStr (message error)];;
       res_status 500;;
       res_json FAILURE_BODY).

End RoutesIndex.

(** ** src/unnamed/part_000 *)

Module RoutesParams.

(** [router.get('/hello', ...)] *)
Definition hello (req : express_request) : M unit :=
  res_send "Hello world".

Definition baseUrl : string := "https://gnews.io/api/v4/search".

(** The object [params]: the literal with [q], [country], [max] and [token],
    then [params.to = req.query.to] when [req.query.to] is truthy. *)
Definition params (apiKey to : value) : gmap string value :=
  let literal : gmap string value :=
    <["token" := apiKey]>
      (<["max" := VNum 10]>
        (<["country" := VStr "br"]>
          (<["q" := VStr GNEWS_QUERY]> ∅))) in
  if truthy to then <["to" := to]> literal else literal.

(** The logging of the catch block, which tells an upstream error answer
    from a request without answer from a request that could not be set up. *)
Definition log_detail (error : js_error) : M unit :=
  match response error with
  | Some r =>
      console_error [VStr "Dados da Resposta:"; data r];;
      console_error [VStr "Status do Erro:"; VNum (status r)];;
      console_error [VStr "Cabeçalhos da Resposta:"; headers r]
  | None =>
      match request error with
      | Some rq =>
          console_error [VStr "Nenhuma resposta recebida do GNews:"; rq]
      | None =>
          console_error [VStr "Erro ao configurar o pedido para o GNews:";
                         VStr (message error)]
      end
  end.

(** [router.get('/noticias', ...)]: Axios receives a [params] object. *)
Definition noticias (req : express_request) : M unit :=
  try_catch
    (apiKey ← getenv "GNEWS_API_KEY";
     if negb (truthy apiKey) then throw (new_Error MISSING_KEY)
     else
       response ← axios_get {| req_url := baseUrl;
                               req_params := Some (params apiKey (req_query req "to")) |};
       res_setHeader "Cache-Control" (VStr "no-cache, no-store, must-revalidate");;
       res_setHeader "Pragma" (VStr "no-cache");;
       res_setHeader "Expires" (VNum 0);;
       res_json (data response))
    (λ error,
       console_error [VStr "--- INÍCIO DO ERRO DETALHADO DO AXIOS ---"];;
       log_detail error;;
       console_error [VStr "--- FIM DO ERRO DETALHADO DO AXIOS ---"];;
       res_status 500;;
       res_json FAILURE_BODY).

End RoutesParams.

(** ** Running the handlers *)

(** The world a handler leaves behind when it is run on a fresh response. *)
Definition serve (h : express_request → M unit) (env : gmap string string)
    (net : axios_request → settled) (req : express_request) : world :=
  snd (h req (initial_world env net)).

(** The two copies of the [/noticias] handler. *)
Inductive variant : Type :=
| Interpolated     (* src/backend/routes/index.js *)
| Parameterised.   (* src/unnamed/part_000 *)

Definition noticias (v : variant) : express_request → M unit :=
  match v with
  | Interpolated => RoutesIndex.noticias
  | Parameterised => RoutesParams.noticias
  end.

Definition hello (v : variant) : express_request → M unit :=
  match v with
  | Interpolated => RoutesIndex.hello
  | Parameterised => RoutesParams.hello
  end.

(** What the handlers read from [process.env.GNEWS_API_KEY]. *)
Definition apiKey_of (env : gmap string string) : value :=
  from_option VStr VUndefined (env !! "GNEWS_API_KEY").

(** The credential counts as configured when [!apiKey] is false. *)
Definition configured (env : gmap string string) : bool :=
  truthy (apiKey_of env).

(** The call each copy hands to [axios.get]; none when the first copy
    cannot build its URL because interpolating the cursor throws. *)
Definition outbound_request (v : variant) (env : gmap string string)
    (req : express_request) : option axios_request :=
  match v with
  | Interpolated =>
      (λ u, {| req_url := u; req_params := None |})
        <$> RoutesIndex.url (apiKey_of env) (req_query req "to")
  | Parameterised =>
      Some {| req_url := RoutesParams.baseUrl;
              req_params := Some (RoutesParams.params (apiKey_of env)
                                    (req_query req "to")) |}
  end.

(** The response of every failed [/noticias] request. *)
Definition failure_response : express_response :=
  {| statusCode := 500; res_headers := ∅;
     res_body := Some (SentJson FAILURE_BODY) |}.

(** The three headers [RoutesParams.noticias] sets before relaying. *)
Definition no_cache_headers : gmap string value :=
  <["Expires" := VNum 0]>
    (<["Pragma" := VStr "no-cache"]>
      (<["Cache-Control" := VStr "no-cache, no-store, must-revalidate"]> ∅)).


(** The headers each copy has set when it relays an upstream answer. *)
Definition relay_headers (v : variant) : gmap string value :=
  match v with
  | Interpolated => ∅
  | Parameterised => no_cache_headers
  end.

(** The response of a relayed upstream answer. *)
Definition relay_response (v : variant) (r : axios_response) : express_response :=
  {| statusCode := 200; res_headers := relay_headers v;
     res_body := Some (SentJson (data r)) |}.

(** What the catch block of each copy writes to the console. *)
Definition failure_log (v : variant) (error : js_error) : list (list value) :=
  match v with
  | Interpolated =>
      [[VStr "Erro ao buscar notícias do GNews:"; VStr (message error)]]
  | Parameterised =>
      [VStr "--- INÍCIO DO ERRO DETALHADO DO AXIOS ---"]
      :: match response error with
         | Some r => [[VStr "Dados da Resposta:"; data r];
                      [VStr "Status do Erro:"; VNum (status r)];
                      [VStr "Cabeçalhos da Resposta:"; headers r]]
         | None =>
             match request error with
             | Some rq => [[VStr "Nenhuma resposta recebida do GNews:"; rq]]
             | None => [[VStr "Erro ao configurar o pedido para o GNews:";
                         VStr (message error)]]
             end
         end
      ++ [[VStr "--- FIM DO ERRO DETALHADO DO AXIOS ---"]]
  end.

(** ** The query of an outbound URL

    How the receiving side reads the URL that [RoutesIndex.noticias] hands to
    Axios: the query is what follows the first [?] up to a [#], it is cut at
    every [&], empty pieces are dropped, and each piece is a name and a value
    separated by its first [=].  Percent-decoding is left out: names and
    values are compared as written. *)

Module URL.

Definition amp : ascii := ascii_of_nat 38.
Definition eq_sign : ascii := ascii_of_nat 61.
Definition qmark : ascii := ascii_of_nat 63.
Definition hash : ascii := ascii_of_nat 35.

(** Whether character [c] occurs in [s]. *)
Fixpoint has_char (c : ascii) (s : string) : bool :=
  match s with
  | EmptyString => false
  | String a r => Ascii.eqb a c || has_char c r
  end.

(** The part of [s] before the first [c] (all of [s] when there is none). *)
Fixpoint before (c : ascii) (s : string) : string :=
  match s with
  | EmptyString => EmptyString
  | String a r => if Ascii.eqb a c then EmptyString else String a (before c r)
  end.

(** The part of [s] after the first [c] (nothing when there is none). *)
Fixpoint after (c : ascii) (s : string) : string :=
  match s with
  | EmptyString => EmptyString
  | String a r => if Ascii.eqb a c then r else after c r
  end.

(** [s] cut at every [c]. *)
Fixpoint split_on (c : ascii) (s : string) : list string :=
  match s with
  | EmptyString => [EmptyString]
  | String a r =>
      if Ascii.eqb a c then EmptyString :: split_on c r
      else match split_on c r with
           | [] => [String a EmptyString]
           | piece :: pieces => String a piece :: pieces
           end
  end.

Definition query_of (url : string) : string :=
  before hash (after qmark url).

Definition pair_of (piece : string) : string * string :=
  (before eq_sign piece, after eq_sign piece).

(** The name and value pairs of a query. *)
Definition pairs_of_query (q : string) : list (string * string) :=
  map pair_of
    (filter (λ piece, negb (String.eqb piece "")) (split_on amp q)).

Definition search_params (url : string) : list (string * string) :=
  pairs_of_query (query_of url).

(** The first value given for [name], as [URLSearchParams.get] returns it. *)
Fixpoint get (name : string) (ps : list (string * string)) : option string :=
  match ps with
  | [] => None
  | (k, v) :: r => if String.eqb k name then Some v else get name r
  end.

(** Every value given for [name]. *)
Definition getAll (name : string) (ps : list (string * string)) : list string :=
  map snd (filter (λ p, String.eqb (fst p) name) ps).

End URL.

(** ** The statements of the specification *)

(** The five parameters the interpolated URL is meant to carry for key [k]
    and cursor [s], in the order the template writes them. *)
Definition intended_pairs (k s : string) : list (string * string) :=
  [("q", GNEWS_QUERY); ("country", "br"); ("max", "10"); ("to", s);
   ("token", k)].

(** The constant head of the query: [q], [country] and [max]. *)
Definition fixed_query : string :=
  "q=" +:+ GNEWS_QUERY +:+ "&country=br&max=10".

Definition fixed_pairs : list (string * string) :=
  [("q", GNEWS_QUERY); ("country", "br"); ("max", "10")].

(** The outbound URL carries additional or altered parameters. *)
Definition tampered (k s : string) : Prop :=
  ∃ u, RoutesIndex.url (VStr k) (VStr s) = Some u
       ∧ URL.search_params u ≠ intended_pairs k s.


(** The network settles the calls of the two copies, where both make one,
    the same way. *)
Definition settles_alike (env : gmap string string)
    (net : axios_request → settled) (req : express_request) : Prop :=
  ∀ a b, outbound_request Interpolated env req = Some a →
         outbound_request Parameterised env req = Some b →
         net a = net b.

(** The two copies answer alike: same status, headers and body whenever the
    network settles their two calls the same way. *)
Definition copies_agree (env : gmap string string)
    (net : axios_request → settled) (req : express_request) : Prop :=
  settles_alike env net req →
  res (serve RoutesIndex.noticias env net req)
    = res (serve RoutesParams.noticias env net req).

(** A cursor with [&] or [=] in it tampers with the outbound parameters. *)
Definition injects (k s : string) : Prop :=
  URL.has_char URL.amp s || URL.has_char URL.eq_sign s = true → tampered k s.

(** One call to [axios.get] for every request once the key is configured,
    none otherwise. *)
Definition calls_once_when_configured (v : variant) (env : gmap string string)
    (net : axios_request → settled) (req : express_request) : Prop :=
  length (outbound (serve (noticias v) env net req))
  = if configured env then 1%nat else 0%nat.

(** The ways a [/noticias] request fails: the key is missing; the call is
    rejected because the upstream answered with an error status, gave no
    answer, or the request could not be set up; or, before any call, the
    URL could not be built because interpolating the cursor threw. *)
Inductive fails (v : variant) (env : gmap string string)
    (net : axios_request → settled) (req : express_request) : Prop :=
| missing_credential :
    env !! "GNEWS_API_KEY" = None ∨ env !! "GNEWS_API_KEY" = Some "" →
    fails v env net req
| upstream_error_status (rq : axios_request) (e : js_error)
    (r : axios_response) :
    configured env = true →
    outbound_request v env req = Some rq →
    net rq = Rejected e →
    response e = Some r →
    fails v env net req
| no_response_received (rq : axios_request) (e : js_error) (q : value) :
    configured env = true →
    outbound_request v env req = Some rq →
    net rq = Rejected e →
    response e = None → request e = Some q →
    fails v env net req
| request_not_constructed (rq : axios_request) (e : js_error) :
    configured env = true →
    outbound_request v env req = Some rq →
    net rq = Rejected e →
    response e = None → request e = None →
    fails v env net req
| url_not_built :
    configured env = true →
    outbound_request v env req = None →
    fails v env net req.

(** ** Sample inputs *)

Definition env_with_key : gmap string string :=
  {[ "GNEWS_API_KEY" := "secret" ]}.

Definition articles : axios_response :=
  {| data := VObj [("articles", VArr [])]; status := 200; headers := VObj [] |}.

Definition net_articles : axios_request → settled := λ _, Fulfilled articles.

Definition net_refused : axios_request → settled :=
  λ _, Rejected {| message := "connect ECONNREFUSED"; response := None;
                   request := Some (VObj []) |}.

Definition plain_request : express_request := {| query := ∅ |}.

Definition paged_request : express_request :=
  {| query := {[ "to" := VStr "2024-01-15T00:00:00Z" ]} |}.

Definition crafted_request : express_request :=
  {| query := {[ "to" := VStr "2024-01-15T00:00:00Z&max=100" ]} |}.

(** [GET /noticias?to=] *)
Definition empty_cursor_request : express_request :=
  {| query := {[ "to" := VStr "" ]} |}.

(** [GET /noticias?to=x%26q%3Danything%26country%3Dus%26max%3D100] *)
Definition overriding_request : express_request :=
  {| query := {[ "to" := VStr "x&q=anything&country=us&max=100" ]} |}.

(** [GET /noticias?to[toString]=x], as the query parser of Express 4 reads
    it: an object with an own property [toString]. *)
Definition shadowed_request : express_request :=
  {| query := {[ "to" := VObj [("toString", VStr "x")] ]} |}.

(** ** The route table

    Both files make the same nine [router.get] calls in the same order.  A
    request path is matched against the patterns in that order, the way
    Express does with its defaults: piece by piece between slashes, a piece
    of the pattern that starts with a colon standing for any non-empty piece
    of the path that [decodeURIComponent] accepts (for one it refuses the
    router answers 400 and runs no handler), any other piece compared
    without regard to the case of ASCII letters, and one slash at the end of
    the path allowed. *)

Module Router.

(** What a route is bound to: one of the two inline handlers, or a method
    of [focusController]. *)
Inductive target : Type :=
| InlineHello
| InlineNoticias
| Controller (method : string).

#[global] Instance target_eq_dec : EqDecision target.
Proof. solve_decision. Defined.

(** The [router.get(path, handler)] calls, in order. *)
Definition router : list (string * target) :=
  [ ("/hello", InlineHello);
    ("/noticias", InlineNoticias);
    ("/focusEstateMonthYear/:month/:year", Controller "getMonthlyFocusByEstate");
    ("/focusYearEstateYear/:estate/:year", Controller "getYearFocusFromEstate");
    ("/focusRegionYear/:year", Controller "getFocusByRegion");
    ("/focusBiomesYear/:year", Controller "getFocusFromBiomes");
    ("/focusEstateAllYears/:estate", Controller "getAllYearsFocusFromEstate");
    ("/focusDailyEstateMonth/:month/:estate", Controller "getDailyFocusByEstateMonth");
    ("/focusDailyEstatesMonth/:month", Controller "getDailyFocusFromEstatesByMonth") ].

Definition slash : ascii := ascii_of_nat 47.
Definition colon : ascii := ascii_of_nat 58.

Definition lower_ascii (a : ascii) : ascii :=
  let n := nat_of_ascii a in
  if (65 <=? n)%nat && (n <=? 90)%nat then ascii_of_nat (n + 32) else a.

Fixpoint lower (s : string) : string :=
  match s with
  | EmptyString => EmptyString
  | String a r => String (lower_ascii a) (lower r)
  end.

(** A piece of a pattern that names a parameter. *)
Definition is_param (piece : string) : bool :=
  match piece with
  | String a _ => Ascii.eqb a colon
  | EmptyString => false
  end.

Definition percent : ascii := ascii_of_nat 37.

(** The value of a hexadecimal digit. *)
Definition hex_value (a : ascii) : option nat :=
  let n := nat_of_ascii a in
  if (48 <=? n)%nat && (n <=? 57)%nat then Some (n - 48)%nat
  else if (65 <=? n)%nat && (n <=? 70)%nat then Some (n - 55)%nat
  else if (97 <=? n)%nat && (n <=? 102)%nat then Some (n - 87)%nat
  else None.

(** For the first byte of a UTF-8 sequence: how many bytes must follow
    and the range of the next one; none for a byte that cannot start a
    sequence. *)
Definition utf8_lead (b : nat) : option (nat * nat * nat) :=
  if (b <? 128)%nat then Some (0, 128, 191)%nat
  else if (194 <=? b)%nat && (b <=? 223)%nat then Some (1, 128, 191)%nat
  else if (b =? 224)%nat then Some (2, 160, 191)%nat
  else if (b =? 237)%nat then Some (2, 128, 159)%nat
  else if (225 <=? b)%nat && (b <=? 239)%nat then Some (2, 128, 191)%nat
  else if (b =? 240)%nat then Some (3, 144, 191)%nat
  else if (241 <=? b)%nat && (b <=? 243)%nat then Some (3, 128, 191)%nat
  else if (b =? 244)%nat then Some (3, 128, 143)%nat
  else None.

(** Where the scan of [decodeURIComponent] stands: between escapes, after
    a percent sign, or after the first digit of an escape. *)
Inductive phase : Type :=
| Plain
| Percent
| Hex (high : nat).

(** The scan: every percent sign starts an escape of two hexadecimal
    digits, and the escaped bytes of 128 and more form well-formed UTF-8
    sequences of escapes that follow one another.  [need] bytes are still
    to come in the current sequence, the next one between [lo] and [hi]. *)
Fixpoint decodes (ph : phase) (need lo hi : nat) (s : string) : bool :=
  match s with
  | EmptyString =>
      match ph with
      | Plain => (need =? 0)%nat
      | _ => false
      end
  | String a r =>
      match ph with
      | Plain =>
          if Ascii.eqb a percent then decodes Percent need lo hi r
          else if (need =? 0)%nat then decodes Plain 0 lo hi r
          else false
      | Percent =>
          match hex_value a with
          | Some h => decodes (Hex h) need lo hi r
          | None => false
          end
      | Hex h =>
          match hex_value a with
          | Some l =>
              let b := (16 * h + l)%nat in
              if (need =? 0)%nat then
                match utf8_lead b with
                | Some (n, lo', hi') => decodes Plain n lo' hi' r
                | None => false
                end
              else if (lo <=? b)%nat && (b <=? hi)%nat
                   then decodes Plain (need - 1) 128 191 r
                   else false
          | None => false
          end
      end
  end.

(** [decodeURIComponent(s)] returns and does not throw a URIError. *)
Definition decodable (s : string) : bool := decodes Plain 0 128 191 s.

(** One piece of a pattern against one piece of a path. *)
Definition piece_matches (pat piece : string) : bool :=
  if is_param pat then negb (String.eqb piece "") && decodable piece
  else String.eqb (lower pat) (lower piece).

(** The pieces of a pattern against the pieces of a path; the path may have
    one empty piece more, its closing slash. *)
Fixpoint pieces_match (pat path : list string) : bool :=
  match pat, path with
  | [], [] => true
  | [], [last] => String.eqb last ""
  | p :: pat', s :: path' => piece_matches p s && pieces_match pat' path'
  | _, _ => false
  end.

Definition matches (pattern path : string) : bool :=
  pieces_match (URL.split_on slash pattern) (URL.split_on slash path).

(** The target of the first route that matches the path: the handler
    that runs, if any. *)
Definition dispatch (path : string) : option target :=
  snd <$> List.find (λ r, matches (fst r) path) router.

(** The literal that follows the first slash of a pattern, in lower case. *)
Definition literal_key (pattern : string) : option string :=
  match URL.split_on slash pattern with
  | first :: lit :: _ =>
      if String.eqb first "" && negb (is_param lit) then Some (lower lit)
      else None
  | _ => None
  end.

(** The piece that follows the first slash of a path, in lower case. *)
Definition path_key (path : string) : option string :=
  match URL.split_on slash path with
  | _ :: piece :: _ => Some (lower piece)
  | _ => None
  end.

(** A piece of a path that fits a piece of a pattern: for a parameter a
    non-empty piece without slash that [decodeURIComponent] accepts, the
    piece itself otherwise. *)
Definition fits (pat piece : string) : Prop :=
  if is_param pat
  then piece ≠ "" ∧ URL.has_char slash piece = false ∧ decodable piece = true
  else piece = pat.

End Router.

(** * Properties *)

(** ** What a run of [/noticias] leaves behind *)

Arguments RoutesIndex.url : simpl never.
Arguments RoutesIndex.url_text : simpl never.
Arguments RoutesParams.params : simpl never.

Ltac run_handler :=
  unfold serve, noticias, hello, RoutesIndex.noticias, RoutesParams.noticias,
    RoutesIndex.hello, RoutesParams.hello, try_catch, initial_world;
  unfold mbind, M_bind, getenv, axios_get, throw, res_json, res_status,
    res_setHeader, res_send, console_error, set_res; cbn.

(** Each copy either fails on the missing key before calling out, or fails
    to build its call, or makes its one call and then relays the answer or
    fails on the rejection. *)
Lemma serve_noticias (v : variant) (env : gmap string string)
    (net : axios_request → settled) (req : express_request) :
  serve (noticias v) env net req =
    if configured env then
      match outbound_request v env req with
      | Some rq =>
          match net rq with
          | Fulfilled r =>
              {| process_env := env; network := net; res := relay_response v r;
                 console := []; outbound := [rq] |}
          | Rejected e =>
              {| process_env := env; network := net; res := failure_response;
                 console := failure_log v e; outbound := [rq] |}
          end
      | None =>
          {| process_env := env; network := net; res := failure_response;
             console := failure_log v conversion_TypeError; outbound := [] |}
      end
    else
      {| process_env := env; network := net; res := failure_response;
         console := failure_log v (new_Error MISSING_KEY); outbound := [] |}.
Proof.
  unfold configured, outbound_request, apiKey_of.
  destruct v; run_handler.
  - destruct (truthy _); cbn; [|reflexivity].
    destruct (RoutesIndex.url _ _) as [u|]; cbn; [|reflexivity].
    destruct (net _) as [r|e]; reflexivity.
  - destruct (truthy _); cbn; [|reflexivity].
    destruct (net _) as [r|e]; cbn; [reflexivity|].
    unfold RoutesParams.log_detail.
    destruct (response e) as [r|]; [reflexivity|].
    destruct (request e); reflexivity.
Qed.

(** The second copy always has a call to make. *)
Lemma parameterised_request (env : gmap string string) (req : express_request) :
  outbound_request Parameterised env req
  = Some {| req_url := "https://gnews.io/api/v4/search";
            req_params := Some (RoutesParams.params (apiKey_of env)
                                  (req_query req "to")) |}.
Proof. reflexivity. Qed.

(** ** Cutting strings *)

Section Cutting.

Variable c : ascii.

Lemma has_char_before (s : string) :
  URL.has_char c (URL.before c s) = false.
Proof.
  induction s as [|x s IH]; simpl; [reflexivity|].
  destruct (Ascii.eqb x c) eqn:E; simpl; [reflexivity|].
  rewrite E. exact IH.
Qed.

Lemma before_app (a b : string) :
  URL.has_char c a = false →
  URL.before c (a +:+ b) = a +:+ URL.before c b.
Proof.
  induction a as [|x a IH]; simpl; [reflexivity|].
  intros H. apply orb_false_iff in H as [Hx Ha].
  rewrite Hx, (IH Ha). reflexivity.
Qed.

Lemma before_id (s : string) :
  URL.has_char c s = false → URL.before c s = s.
Proof.
  induction s as [|x s IH]; simpl; [reflexivity|].
  intros H. apply orb_false_iff in H as [Hx Hs].
  rewrite Hx, (IH Hs). reflexivity.
Qed.

Lemma after_app_sep (a b : string) :
  URL.has_char c a = false →
  URL.after c (a +:+ String c b) = b.
Proof.
  induction a as [|x a IH]; simpl.
  - rewrite Ascii.eqb_refl. reflexivity.
  - intros H. apply orb_false_iff in H as [Hx Ha].
    rewrite Hx. exact (IH Ha).
Qed.

Lemma split_on_app_sep (a b : string) :
  URL.has_char c a = false →
  URL.split_on c (a +:+ String c b) = a :: URL.split_on c b.
Proof.
  induction a as [|x a IH]; simpl.
  - rewrite Ascii.eqb_refl. reflexivity.
  - intros H. apply orb_false_iff in H as [Hx Ha].
    rewrite Hx, (IH Ha). reflexivity.
Qed.

(** The first piece of a cut string is what precedes the first separator. *)
Lemma split_on_head (s : string) :
  ∃ pieces, URL.split_on c s = URL.before c s :: pieces.
Proof.
  induction s as [|x s [pieces IH]]; simpl.
  - exists []. reflexivity.
  - destruct (Ascii.eqb x c).
    + eexists. reflexivity.
    + rewrite IH. eexists. reflexivity.
Qed.

End Cutting.

(** Cutting at [#] and then at [&] forgets whatever follows an [&]. *)
Lemma before_amp_hash (s t : string) :
  URL.before URL.amp (URL.before URL.hash (s +:+ String URL.amp t))
  = URL.before URL.amp (URL.before URL.hash s).
Proof.
  induction s as [|x s IH]; simpl; [reflexivity|].
  destruct (Ascii.eqb x URL.hash); [reflexivity|]. simpl.
  destruct (Ascii.eqb x URL.amp); [reflexivity|].
  f_equal. exact IH.
Qed.

(** ** The query of the interpolated URL *)

Lemma truthy_nonempty (s : string) : s ≠ "" → truthy (VStr s) = true.
Proof. intros H. cbn. destruct s; [congruence|reflexivity]. Qed.

(** The URL of a key and a non-empty string cursor. *)
Lemma url_strings (k s : string) :
  s ≠ "" →
  RoutesIndex.url (VStr k) (VStr s)
  = Some (RoutesIndex.url_text ("&to=" +:+ s) k).
Proof.
  intros Hs. unfold RoutesIndex.url, RoutesIndex.dateFilter.
  rewrite (truthy_nonempty s Hs). reflexivity.
Qed.

(** The URL of a string key without cursor. *)
Lemma url_no_cursor (k : string) (lastPublishedAt : value) :
  truthy lastPublishedAt = false →
  RoutesIndex.url (VStr k) lastPublishedAt = Some (RoutesIndex.url_text "" k).
Proof.
  intros Ht. unfold RoutesIndex.url, RoutesIndex.dateFilter.
  rewrite Ht. reflexivity.
Qed.

(** A URL that was built has one of two shapes. *)
Lemma url_inv (apiKey lastPublishedAt : value) (u : string) :
  RoutesIndex.url apiKey lastPublishedAt = Some u →
  ∃ k, toString apiKey = Some k
       ∧ ((truthy lastPublishedAt = false ∧ u = RoutesIndex.url_text "" k)
          ∨ (∃ s, truthy lastPublishedAt = true
                  ∧ toString lastPublishedAt = Some s
                  ∧ u = RoutesIndex.url_text ("&to=" +:+ s) k)).
Proof.
  unfold RoutesIndex.url, RoutesIndex.dateFilter.
  destruct (truthy lastPublishedAt).
  - destruct (toString lastPublishedAt) as [s|]; [|discriminate]. cbn.
    destruct (toString apiKey) as [k|]; [|discriminate]. cbn.
    intros [= <-]. exists k. split; [reflexivity|]. right. eauto.
  - destruct (toString apiKey) as [k|]; [|discriminate]. cbn.
    intros [= <-]. exists k. split; [reflexivity|]. left. eauto.
Qed.

Lemma url_query (filter k : string) :
  URL.query_of (RoutesIndex.url_text filter k)
  = fixed_query +:+ URL.before URL.hash (filter +:+ "&token=" +:+ k).
Proof.
  unfold URL.query_of.
  change (RoutesIndex.url_text filter k)
    with ("https://gnews.io/api/v4/search"
          +:+ String URL.qmark
                (fixed_query +:+ filter +:+ "&token=" +:+ k)).
  rewrite after_app_sep by reflexivity.
  change (fixed_query +:+ filter +:+ "&token=" +:+ k)
    with (fixed_query +:+ (filter +:+ "&token=" +:+ k)).
  apply before_app. reflexivity.
Qed.

(** Whatever follows the constant head, the first three pairs are fixed. *)
Lemma pairs_fixed_query (rest : string) :
  URL.pairs_of_query (fixed_query +:+ String URL.amp rest)
  = fixed_pairs ++ URL.pairs_of_query rest.
Proof.
  unfold URL.pairs_of_query.
  change (fixed_query +:+ String URL.amp rest)
    with (("q=" +:+ GNEWS_QUERY)
          +:+ String URL.amp ("country=br" +:+ String URL.amp
                                ("max=10" +:+ String URL.amp rest))).
  rewrite !split_on_app_sep by reflexivity.
  reflexivity.
Qed.

Lemma search_params_no_cursor (k : string) :
  URL.search_params (RoutesIndex.url_text "" k)
  = fixed_pairs ++ URL.pairs_of_query ("token=" +:+ URL.before URL.hash k).
Proof.
  unfold URL.search_params. rewrite url_query.
  change (URL.before URL.hash ("" +:+ "&token=" +:+ k))
    with (String URL.amp ("token=" +:+ URL.before URL.hash k)).
  apply pairs_fixed_query.
Qed.

Lemma search_params_cursor (s k : string) :
  URL.search_params (RoutesIndex.url_text ("&to=" +:+ s) k)
  = fixed_pairs
    ++ URL.pairs_of_query
         ("to=" +:+ URL.before URL.hash
                      (s +:+ String URL.amp ("token=" +:+ k))).
Proof.
  unfold URL.search_params. rewrite url_query.
  change (URL.before URL.hash (("&to=" +:+ s) +:+ "&token=" +:+ k))
    with (String URL.amp
            ("to=" +:+ URL.before URL.hash
                         (s +:+ String URL.amp ("token=" +:+ k)))).
  apply pairs_fixed_query.
Qed.

(** The pairs of a query that starts with [to=]. *)
Lemma pairs_to_head (rest : string) :
  ∃ more, URL.pairs_of_query ("to=" +:+ rest)
          = ("to", URL.before URL.amp rest) :: more.
Proof.
  unfold URL.pairs_of_query.
  destruct (split_on_head URL.amp ("to=" +:+ rest)) as [pieces ->].
  rewrite before_app by reflexivity.
  eexists. reflexivity.
Qed.

(** What the receiving side reads as [to] from the interpolated URL: the
    cursor up to its first [#] or [&]. *)
Lemma url_to_param (s k : string) :
  URL.get "to" (URL.search_params (RoutesIndex.url_text ("&to=" +:+ s) k))
  = Some (URL.before URL.amp (URL.before URL.hash s)).
Proof.
  rewrite search_params_cursor.
  destruct (pairs_to_head
              (URL.before URL.hash
                 (s +:+ String URL.amp ("token=" +:+ k)))) as [more ->].
  rewrite before_amp_hash. reflexivity.
Qed.

(** A cursor without [&] and [#] is read back whole. *)
Lemma url_to_param_whole (s k : string) :
  URL.has_char URL.amp s = false → URL.has_char URL.hash s = false →
  URL.get "to" (URL.search_params (RoutesIndex.url_text ("&to=" +:+ s) k))
  = Some s.
Proof.
  intros Hamp Hhash.
  rewrite url_to_param, (before_id _ _ Hhash), (before_id _ _ Hamp).
  reflexivity.
Qed.

(** The first [q], [country] and [max] of every URL that is built. *)
Lemma url_fixed_params (apiKey lastPublishedAt : value) (u : string) :
  RoutesIndex.url apiKey lastPublishedAt = Some u →
  URL.get "q" (URL.search_params u) = Some GNEWS_QUERY
  ∧ URL.get "country" (URL.search_params u) = Some "br"
  ∧ URL.get "max" (URL.search_params u) = Some "10".
Proof.
  intros H. apply url_inv in H as [k [_ [[_ ->]|[s [_ [_ ->]]]]]].
  - rewrite search_params_no_cursor. repeat split; reflexivity.
  - rewrite search_params_cursor. repeat split; reflexivity.
Qed.

(** ** The [params] object of the second copy *)

Lemma params_fixed (apiKey to : value) :
  RoutesParams.params apiKey to !! "q" = Some (VStr GNEWS_QUERY)
  ∧ RoutesParams.params apiKey to !! "country" = Some (VStr "br")
  ∧ RoutesParams.params apiKey to !! "max" = Some (VNum 10)
  ∧ RoutesParams.params apiKey to !! "token" = Some apiKey.
Proof.
  unfold RoutesParams.params.
  destruct (truthy to); repeat split; by simplify_map_eq.
Qed.

(** A truthy [req.query.to] is passed on as it is; otherwise the object has
    no [to] at all. *)
Lemma params_to (apiKey to : value) :
  RoutesParams.params apiKey to !! "to"
  = if truthy to then Some to else None.
Proof.
  unfold RoutesParams.params.
  destruct (truthy to); by simplify_map_eq.
Qed.

(** ** The credential *)

Lemma configured_false (env : gmap string string) :
  configured env = false
  ↔ env !! "GNEWS_API_KEY" = None ∨ env !! "GNEWS_API_KEY" = Some "".
Proof.
  unfold configured, apiKey_of.
  destruct (env !! "GNEWS_API_KEY") as [[|a k]|]; cbn; split; intros H;
    try reflexivity; try discriminate; auto.
  - destruct H as [H|H]; discriminate.
Qed.

Lemma configured_true (env : gmap string string) (k : string) :
  env !! "GNEWS_API_KEY" = Some k → k ≠ "" → configured env = true.
Proof.
  intros Hk Hne. destruct (configured env) eqn:E; [reflexivity|].
  apply configured_false in E as [E|E]; congruence.
Qed.

Lemma fails_inv (v : variant) (env : gmap string string)
    (net : axios_request → settled) (req : express_request) :
  fails v env net req →
  configured env = false
  ∨ (configured env = true
     ∧ (outbound_request v env req = None
        ∨ ∃ rq e, outbound_request v env req = Some rq ∧ net rq = Rejected e)).
Proof.
  intros [H|rq e r Hc Hr Hn _|rq e q Hc Hr Hn _ _|rq e Hc Hr Hn _ _|Hc Hr].
  - left. apply configured_false. exact H.
  - right. eauto 6.
  - right. eauto 6.
  - right. eauto 6.
  - right. eauto.
Qed.

Lemma fails_response (v : variant) (env : gmap string string)
    (net : axios_request → settled) (req : express_request) :
  fails v env net req →
  res (serve (noticias v) env net req) = failure_response.
Proof.
  intros H. rewrite serve_noticias.
  destruct (fails_inv _ _ _ _ H) as [->|[-> [->|[rq [e [-> ->]]]]]];
    reflexivity.
Qed.

(** A status of 500 comes from one of the failures. *)
Lemma status_500_fails (v : variant) (env : gmap string string)
    (net : axios_request → settled) (req : express_request) :
  statusCode (res (serve (noticias v) env net req)) = 500 →
  fails v env net req.
Proof.
  rewrite serve_noticias. destruct (configured env) eqn:Hc.
  - destruct (outbound_request v env req) as [rq|] eqn:Hr.
    + destruct (net rq) as [r|e] eqn:Hn; [discriminate|]. intros _.
      destruct (response e) as [r|] eqn:Hre.
      * exact (upstream_error_status v env net req rq e r Hc Hr Hn Hre).
      * destruct (request e) as [q|] eqn:Hq.
        -- exact (no_response_received v env net req rq e q Hc Hr Hn Hre Hq).
        -- exact (request_not_constructed v env net req rq e Hc Hr Hn Hre Hq).
    + intros _. exact (url_not_built v env net req Hc Hr).
  - intros _. apply missing_credential, configured_false, Hc.
Qed.

(** ** The claims *)

(** C1: with GNEWS_API_KEY unset or empty, either copy of the /noticias
    handler answers status 500 with the body
    [{ error: 'Falha ao buscar notícias externas.' }] and calls
    [axios.get] not once. *)
Theorem noticias_missing_credential (v : variant) (env : gmap string string)
    (net : axios_request → settled) (req : express_request) :
  env !! "GNEWS_API_KEY" = None ∨ env !! "GNEWS_API_KEY" = Some "" →
  statusCode (res (serve (noticias v) env net req)) = 500
  ∧ res_body (res (serve (noticias v) env net req))
    = Some (SentJson (VObj [("error", VStr "Falha ao buscar notícias externas.")]))
  ∧ outbound (serve (noticias v) env net req) = [].
Proof.
  intros H. apply configured_false in H.
  rewrite serve_noticias, H. repeat split.
Qed.

Lemma noticias_missing_credential_witness :
  ((∅ : gmap string string) !! "GNEWS_API_KEY" = None
   ∨ (∅ : gmap string string) !! "GNEWS_API_KEY" = Some "")
  ∧ statusCode (res (serve (noticias Interpolated) ∅ net_articles paged_request)) = 500
  ∧ res_body (res (serve (noticias Interpolated) ∅ net_articles paged_request))
    = Some (SentJson (VObj [("error", VStr "Falha ao buscar notícias externas.")]))
  ∧ outbound (serve (noticias Interpolated) ∅ net_articles paged_request) = [].
Proof.
  split; [left; reflexivity|].
  apply (noticias_missing_credential Interpolated ∅ net_articles paged_request).
  left; reflexivity.
Defined.




(** C3: whichever way a /noticias request fails (key missing, upstream
    error status, no answer, request not constructed, be it that Axios
    could not set it up or that the URL could not be built), either copy
    answers with the one constant response: status 500, no header, body
    [{ error: 'Falha ao buscar notícias externas.' }].  The response does
    not depend on the key, the request or the error. *)
Theorem noticias_failure_uniform (v : variant) (env : gmap string string)
    (net : axios_request → settled) (req : express_request) :
  fails v env net req →
  res (serve (noticias v) env net req)
  = {| statusCode := 500; res_headers := ∅;
       res_body := Some (SentJson
                     (VObj [("error", VStr "Falha ao buscar notícias externas.")])) |}.
Proof.
  intros H. rewrite (fails_response _ _ _ _ H). reflexivity.
Qed.

Lemma noticias_failure_uniform_witness :
  fails Parameterised env_with_key net_refused paged_request
  ∧ res (serve (noticias Parameterised) env_with_key net_refused paged_request)
    = {| statusCode := 500; res_headers := ∅;
         res_body := Some (SentJson
                       (VObj [("error", VStr "Falha ao buscar notícias externas.")])) |}.
Proof.
  assert (F : fails Parameterised env_with_key net_refused paged_request).
  { eapply no_response_received;
      [reflexivity|apply parameterised_request|reflexivity..]. }
  split; [exact F|].
  exact (noticias_failure_uniform Parameterised env_with_key net_refused
           paged_request F).
Defined.

(** C4, at a cursor that contains an ampersand: for
    [GET /noticias?to=2024-01-15T00:00:00Z%26max%3D100] Express hands the
    handler [req.query.to = "2024-01-15T00:00:00Z&max=100"]; the URL built
    in src/backend/routes/index.js then reads as [to=2024-01-15T00:00:00Z]
    followed by a second [max], while the copy with the [params] object
    passes the cursor on whole. *)
Theorem interpolated_cursor_cut :
  req_query crafted_request "to" = VStr "2024-01-15T00:00:00Z&max=100"
  ∧ map (λ r, URL.search_params (req_url r))
        (outbound (serve RoutesIndex.noticias env_with_key net_articles
                     crafted_request))
    = [[("q", GNEWS_QUERY); ("country", "br"); ("max", "10");
        ("to", "2024-01-15T00:00:00Z"); ("max", "100"); ("token", "secret")]]
  ∧ map (λ r, (λ p : gmap string value, p !! "to") <$> req_params r)
        (outbound (serve RoutesParams.noticias env_with_key net_articles
                     crafted_request))
    = [Some (Some (VStr "2024-01-15T00:00:00Z&max=100"))].
Proof.
  repeat split; vm_compute; reflexivity.
Qed.

(** Every call of the copy with the [params] object carries the search
    expression, the country and the cap as written in the source. *)
Lemma parameterised_fixed_search (env : gmap string string)
    (net : axios_request → settled) (req : express_request)
    (r : axios_request) :
  In r (outbound (serve RoutesParams.noticias env net req)) →
  req_url r = "https://gnews.io/api/v4/search"
  ∧ ∃ p, req_params r = Some p
         ∧ p !! "q" = Some (VStr GNEWS_QUERY)
         ∧ p !! "country" = Some (VStr "br")
         ∧ p !! "max" = Some (VNum 10).
Proof.
  rewrite (serve_noticias Parameterised), parameterised_request.
  destruct (configured env); [|intros []].
  intros H.
  assert (r = {| req_url := "https://gnews.io/api/v4/search";
                 req_params := Some (RoutesParams.params (apiKey_of env)
                                       (req_query req "to")) |}) as ->
    by (destruct (net _); destruct H as [<-|[]]; reflexivity).
  split; [reflexivity|]. eexists. split; [reflexivity|].
  destruct (params_fixed (apiKey_of env) (req_query req "to"))
    as (Hq & Hc & Hm & _).
  auto.
Qed.

(** C5, at a cursor that names [q], [country] and [max] itself: for
    [GET /noticias?to=x%26q%3Danything%26country%3Dus%26max%3D100] the URL
    built in src/backend/routes/index.js carries, after the three values of
    the source, a second [q], [country] and [max] chosen by the caller; the
    [params] object of the other copy holds the three values of the source
    only. *)
Theorem interpolated_constants_overridden :
  req_query overriding_request "to" = VStr "x&q=anything&country=us&max=100"
  ∧ map (λ r, (URL.getAll "q" (URL.search_params (req_url r)),
               URL.getAll "country" (URL.search_params (req_url r)),
               URL.getAll "max" (URL.search_params (req_url r))))
        (outbound (serve RoutesIndex.noticias env_with_key net_articles
                     overriding_request))
    = [([GNEWS_QUERY; "anything"], ["br"; "us"], ["10"; "100"])]
  ∧ map (λ r, (λ p : gmap string value,
                 (p !! "q", p !! "country", p !! "max")) <$> req_params r)
        (outbound (serve RoutesParams.noticias env_with_key net_articles
                     overriding_request))
    = [Some (Some (VStr GNEWS_QUERY), Some (VStr "br"), Some (VNum 10))].
Proof.
  repeat split; vm_compute; reflexivity.
Qed.

(** C6 does not hold as stated: on a fulfilled call the two copies answer
    with different headers; and for a cursor that is an object with an own
    [toString] the first copy answers 500 where the second relays. *)
Lemma copies_differ_on_success :
  ¬ copies_agree env_with_key net_articles plain_request
  ∧ ¬ copies_agree env_with_key net_articles shadowed_request.
Proof.
  split; intros H.
  - assert (S : settles_alike env_with_key net_articles plain_request)
      by (intros a b _ _; reflexivity).
    specialize (H S).
    apply (f_equal (λ r, res_headers r !! "Pragma")) in H.
    vm_compute in H. discriminate H.
  - assert (S : settles_alike env_with_key net_articles shadowed_request)
      by (intros a b _ _; reflexivity).
    specialize (H S).
    apply (f_equal statusCode) in H.
    vm_compute in H. discriminate H.
Qed.

(** C6, amended: when the first copy can build its URL and the network
    settles the calls of the two copies the same way, they answer with the
    same status and the same body; the interpolating copy never sets a
    header, the copy with the [params] object has set the three
    cache-disabling headers when it answers 200 and none when it answers
    500. *)
Theorem copies_agree_up_to_headers (env : gmap string string)
    (net : axios_request → settled) (req : express_request)
    (a b : axios_request) :
  outbound_request Interpolated env req = Some a →
  outbound_request Parameterised env req = Some b →
  net a = net b →
  statusCode (res (serve RoutesIndex.noticias env net req))
    = statusCode (res (serve RoutesParams.noticias env net req))
  ∧ res_body (res (serve RoutesIndex.noticias env net req))
    = res_body (res (serve RoutesParams.noticias env net req))
  ∧ res_headers (res (serve RoutesIndex.noticias env net req)) = ∅
  ∧ res_headers (res (serve RoutesParams.noticias env net req))
    = if statusCode (res (serve RoutesParams.noticias env net req)) =? 200
      then no_cache_headers else ∅.
Proof.
  intros Ha Hb Hnet.
  rewrite (serve_noticias Interpolated), (serve_noticias Parameterised).
  rewrite Ha, Hb, Hnet.
  destruct (configured env); [|repeat split].
  destruct (net b); repeat split.
Qed.

Lemma copies_agree_up_to_headers_witness :
  (∃ a b, outbound_request Interpolated env_with_key paged_request = Some a
          ∧ outbound_request Parameterised env_with_key paged_request = Some b
          ∧ net_articles a = net_articles b)
  ∧ statusCode (res (serve RoutesIndex.noticias env_with_key net_articles paged_request))
    = statusCode (res (serve RoutesParams.noticias env_with_key net_articles paged_request))
  ∧ res_body (res (serve RoutesIndex.noticias env_with_key net_articles paged_request))
    = res_body (res (serve RoutesParams.noticias env_with_key net_articles paged_request))
  ∧ res_headers (res (serve RoutesIndex.noticias env_with_key net_articles paged_request)) = ∅
  ∧ res_headers (res (serve RoutesParams.noticias env_with_key net_articles paged_request))
    = if statusCode (res (serve RoutesParams.noticias env_with_key net_articles
                            paged_request)) =? 200
      then no_cache_headers else ∅.
Proof.
  split; [do 2 eexists; repeat split; reflexivity|].
  apply (copies_agree_up_to_headers env_with_key net_articles paged_request
           _ _ eq_refl (parameterised_request _ _) eq_refl).
Defined.

(** C7: the /hello handler of either file answers status 200 with the text
    [Hello world], sets no header and calls nothing, whatever the process
    environment, the network and the request are. *)
Theorem hello_fixed (v : variant) (env : gmap string string)
    (net : axios_request → settled) (req : express_request) :
  res (serve (hello v) env net req)
  = {| statusCode := 200; res_headers := ∅;
       res_body := Some (SentText "Hello world") |}
  ∧ outbound (serve (hello v) env net req) = [].
Proof.
  destruct v; split; reflexivity.
Qed.

(** C8 does not hold as stated: with the key configured, the copy in
    src/backend/routes/index.js makes no call for a cursor that is an
    object with an own [toString]. *)
Lemma configured_without_call :
  ¬ calls_once_when_configured Interpolated env_with_key net_articles
      shadowed_request.
Proof.
  unfold calls_once_when_configured. vm_compute. discriminate.
Qed.

(** C8, amended: either copy of the /noticias handler calls [axios.get] at
    most once: not at all when the key is not configured, and exactly once
    when it is configured and the call could be set up, which the copy with
    the [params] object always can. *)
Theorem noticias_one_call (v : variant) (env : gmap string string)
    (net : axios_request → settled) (req : express_request) :
  outbound (serve (noticias v) env net req)
  = (if configured env then option_list (outbound_request v env req) else [])
  ∧ (length (outbound (serve (noticias v) env net req)) ≤ 1)%nat
  ∧ is_Some (outbound_request Parameterised env req).
Proof.
  rewrite serve_noticias. split; [|split].
  - destruct (configured env); [|reflexivity].
    destruct (outbound_request v env req) as [rq|]; [|reflexivity].
    destruct (net rq); reflexivity.
  - destruct (configured env); [|cbn; lia].
    destruct (outbound_request v env req) as [rq|]; [|cbn; lia].
    destruct (net rq); cbn; lia.
  - eexists. apply parameterised_request.
Qed.

(** C9 does not hold as stated: the cursor [a=b] contains [=] and the URL
    built from it carries exactly the five intended parameters, [to] being
    [a=b]. *)
Lemma equals_sign_does_not_inject : ¬ injects "secret" "a=b".
Proof.
  intros H. destruct (H eq_refl) as [u [Hu Hne]].
  apply Hne. injection Hu as <-.
  vm_compute. reflexivity.
Qed.

(** C9, amended: in src/backend/routes/index.js a non-empty string cursor
    [s] is written into the outbound URL as it is, as [&to=s]; the
    receiving side reads as [to] the part of [s] before its first [#] or
    [&]; so for every cursor that contains [&] the outbound URL carries
    additional or altered parameters. *)
Theorem interpolated_cursor_verbatim (env : gmap string string)
    (net : axios_request → settled) (req : express_request) (k s : string) :
  env !! "GNEWS_API_KEY" = Some k → k ≠ "" →
  query req !! "to" = Some (VStr s) → s ≠ "" →
  map req_url (outbound (serve RoutesIndex.noticias env net req))
  = ["https://gnews.io/api/v4/search?q=" +:+ GNEWS_QUERY
     +:+ "&country=br&max=10" +:+ "&to=" +:+ s +:+ "&token=" +:+ k]
  ∧ RoutesIndex.url (VStr k) (VStr s)
      ≫= (λ u, URL.get "to" (URL.search_params u))
    = Some (URL.before URL.amp (URL.before URL.hash s))
  ∧ (URL.has_char URL.amp s = true → tampered k s).
Proof.
  intros Hk Hkne Hs Hsne.
  pose proof (url_strings k s Hsne) as Hu.
  split; [|split].
  - rewrite (serve_noticias Interpolated), (configured_true env k Hk Hkne).
    unfold outbound_request, apiKey_of, req_query. rewrite Hk, Hs. cbn.
    rewrite Hu. cbn. destruct (net _); reflexivity.
  - rewrite Hu. cbn. apply url_to_param.
  - intros Hamp. eexists. split; [exact Hu|]. intros Heq.
    apply (f_equal (URL.get "to")) in Heq.
    rewrite url_to_param in Heq.
    change (URL.get "to" (intended_pairs k s)) with (Some s) in Heq.
    injection Heq as Heq.
    pose proof (has_char_before URL.amp (URL.before URL.hash s)) as Hb.
    rewrite Heq in Hb. congruence.
Qed.

Lemma interpolated_cursor_verbatim_witness :
  env_with_key !! "GNEWS_API_KEY" = Some "secret"
  ∧ "secret" ≠ ""
  ∧ query crafted_request !! "to" = Some (VStr "2024-01-15T00:00:00Z&max=100")
  ∧ "2024-01-15T00:00:00Z&max=100" ≠ ""
  ∧ URL.has_char URL.amp "2024-01-15T00:00:00Z&max=100" = true
  ∧ tampered "secret" "2024-01-15T00:00:00Z&max=100".
Proof.
  assert (H1 : env_with_key !! "GNEWS_API_KEY" = Some "secret") by reflexivity.
  assert (H2 : "secret" ≠ "") by discriminate.
  assert (H3 : query crafted_request !! "to"
               = Some (VStr "2024-01-15T00:00:00Z&max=100")) by reflexivity.
  assert (H4 : "2024-01-15T00:00:00Z&max=100" ≠ "") by discriminate.
  assert (H5 : URL.has_char URL.amp "2024-01-15T00:00:00Z&max=100" = true)
    by reflexivity.
  repeat (split; [assumption|]).
  exact (proj2 (proj2 (interpolated_cursor_verbatim env_with_key net_articles
                         crafted_request _ _ H1 H2 H3 H4)) H5).
Defined.

(** C10: the copy with the [params] object sets Cache-Control, Pragma and
    Expires only when it relays a fulfilled call: a failed request is
    answered with status 500 and the fixed body and with no header set, an
    answer of status 500 has no header set, and a header that is set means
    the key was configured and the call fulfilled. *)
Theorem parameterised_headers_only_on_success (env : gmap string string)
    (net : axios_request → settled) (req : express_request) :
  (fails Parameterised env net req →
   res (serve RoutesParams.noticias env net req) = failure_response
   ∧ res_headers (res (serve RoutesParams.noticias env net req)) = ∅)
  ∧ (statusCode (res (serve RoutesParams.noticias env net req)) = 500 →
     res_headers (res (serve RoutesParams.noticias env net req)) = ∅)
  ∧ (∀ name x,
       res_headers (res (serve RoutesParams.noticias env net req)) !! name = Some x →
       configured env = true
       ∧ statusCode (res (serve RoutesParams.noticias env net req)) = 200
       ∧ ∃ rq r, outbound_request Parameterised env req = Some rq
                 ∧ net rq = Fulfilled r).
Proof.
  split; [|split].
  - intros H. pose proof (fails_response _ _ _ _ H) as E.
    change (noticias Parameterised) with RoutesParams.noticias in E.
    rewrite E. split; reflexivity.
  - rewrite (serve_noticias Parameterised), parameterised_request.
    destruct (configured env); [|reflexivity].
    destruct (net _); [discriminate|reflexivity].
  - intros name x.
    rewrite (serve_noticias Parameterised), parameterised_request.
    destruct (configured env); [|cbn; by rewrite lookup_empty].
    destruct (net _) as [r|e] eqn:Hn; [|cbn; by rewrite lookup_empty].
    intros _. repeat split. eexists _, r. split; [reflexivity|exact Hn].
Qed.

Lemma parameterised_headers_only_on_success_witness :
  fails Parameterised env_with_key net_refused paged_request
  ∧ res (serve RoutesParams.noticias env_with_key net_refused paged_request)
    = failure_response
  ∧ res_headers (res (serve RoutesParams.noticias env_with_key net_refused
                        paged_request)) = ∅.
Proof.
  assert (F : fails Parameterised env_with_key net_refused paged_request).
  { eapply no_response_received;
      [reflexivity|apply parameterised_request|reflexivity..]. }
  split; [exact F|].
  exact (proj1 (parameterised_headers_only_on_success env_with_key net_refused
                  paged_request) F).
Defined.

(** * Further properties of the handlers *)

(** ** Completion and status *)


(** X2: a /noticias answer has status 200 or 500, and it has status 500
    exactly when the request failed: the key is missing, the call was
    rejected (upstream error status, no answer, request not set up), or the
    URL could not be built.  The status of the upstream answer is never
    passed on. *)
Theorem noticias_status_500_iff_fails (v : variant)
    (env : gmap string string) (net : axios_request → settled)
    (req : express_request) :
  (statusCode (res (serve (noticias v) env net req)) = 200
   ∨ statusCode (res (serve (noticias v) env net req)) = 500)
  ∧ (statusCode (res (serve (noticias v) env net req)) = 500
     ↔ fails v env net req).
Proof.
  split.
  - rewrite serve_noticias. destruct (configured env); [|right; reflexivity].
    destruct (outbound_request v env req) as [rq|]; [|right; reflexivity].
    destruct (net rq); [left|right]; reflexivity.
  - split; [apply status_500_fails|].
    intros H. rewrite (fails_response _ _ _ _ H). reflexivity.
Qed.

(** X3: of a fulfilled upstream answer only [data] reaches the caller: two
    answers with the same data and any status and headers give the same
    response. *)
Theorem noticias_relays_data_only (v : variant) (env : gmap string string)
    (net net' : axios_request → settled) (req : express_request)
    (rq : axios_request) (r r' : axios_response) :
  configured env = true →
  outbound_request v env req = Some rq →
  net rq = Fulfilled r →
  net' rq = Fulfilled r' →
  data r = data r' →
  res (serve (noticias v) env net req) = res (serve (noticias v) env net' req).
Proof.
  intros Hc Hr Hn Hn' Hd.
  rewrite !serve_noticias, Hc, Hr, Hn, Hn'. cbn.
  unfold relay_response. rewrite Hd. reflexivity.
Qed.

Lemma noticias_relays_data_only_witness :
  configured env_with_key = true
  ∧ data articles = data {| data := VObj [("articles", VArr [])]; status := 203;
                            headers := VObj [("x-quota", VStr "1")] |}
  ∧ res (serve (noticias Parameterised) env_with_key net_articles paged_request)
    = res (serve (noticias Parameterised) env_with_key
             (λ _, Fulfilled {| data := VObj [("articles", VArr [])];
                                status := 203;
                                headers := VObj [("x-quota", VStr "1")] |})
             paged_request).
Proof.
  split; [reflexivity|]. split; [reflexivity|].
  apply (noticias_relays_data_only Parameterised env_with_key net_articles _
           paged_request _ articles
           {| data := VObj [("articles", VArr [])]; status := 203;
              headers := VObj [("x-quota", VStr "1")] |} eq_refl
           (parameterised_request _ _));
    reflexivity.
Defined.

(** ** What of the query is read *)

Lemma outbound_request_to (v : variant) (env : gmap string string)
    (req req' : express_request) :
  req_query req "to" = req_query req' "to" →
  outbound_request v env req = outbound_request v env req'.
Proof.
  intros H. unfold outbound_request. rewrite H. reflexivity.
Qed.

Lemma outbound_request_falsy (v : variant) (env : gmap string string)
    (req req' : express_request) :
  truthy (req_query req "to") = false →
  truthy (req_query req' "to") = false →
  outbound_request v env req = outbound_request v env req'.
Proof.
  intros H H'.
  unfold outbound_request, RoutesIndex.url, RoutesIndex.dateFilter,
    RoutesParams.params.
  rewrite H, H'. reflexivity.
Qed.

Lemma serve_same_call (v : variant) (env : gmap string string)
    (net : axios_request → settled) (req req' : express_request) :
  outbound_request v env req = outbound_request v env req' →
  serve (noticias v) env net req = serve (noticias v) env net req'.
Proof.
  intros H. rewrite !serve_noticias, H. reflexivity.
Qed.

(** X4: of the query of a request the /noticias handlers read [to] and
    nothing else: two queries that agree on [to] leave the same response,
    the same console lines and the same outbound call, whatever other
    parameters ([token], [max], ...) they hold. *)
Theorem noticias_reads_only_to (v : variant) (env : gmap string string)
    (net : axios_request → settled) (req req' : express_request) :
  req_query req "to" = req_query req' "to" →
  serve (noticias v) env net req = serve (noticias v) env net req'.
Proof.
  intros H. apply serve_same_call, outbound_request_to, H.
Qed.

Lemma noticias_reads_only_to_witness :
  req_query paged_request "to"
  = req_query {| query := <["token" := VStr "other"]>
                            (<["max" := VStr "100"]> (query paged_request)) |} "to"
  ∧ serve (noticias Interpolated) env_with_key net_articles paged_request
    = serve (noticias Interpolated) env_with_key net_articles
        {| query := <["token" := VStr "other"]>
                      (<["max" := VStr "100"]> (query paged_request)) |}.
Proof.
  split; [reflexivity|].
  apply (noticias_reads_only_to Interpolated env_with_key net_articles
           paged_request). reflexivity.
Defined.

(** X5: a [to] that is present and falsy (the empty string of [?to=]) is
    handled as if the request had no [to]: same outbound call, same
    response. *)
Theorem noticias_empty_to_is_absent (v : variant) (env : gmap string string)
    (net : axios_request → settled) (req : express_request) :
  truthy (req_query req "to") = false →
  serve (noticias v) env net req
  = serve (noticias v) env net {| query := delete "to" (query req) |}.
Proof.
  intros H. apply serve_same_call, outbound_request_falsy; [exact H|].
  unfold req_query. cbn. rewrite lookup_delete_eq. reflexivity.
Qed.

Lemma noticias_empty_to_is_absent_witness :
  truthy (req_query empty_cursor_request "to") = false
  ∧ serve (noticias Parameterised) env_with_key net_articles empty_cursor_request
    = serve (noticias Parameterised) env_with_key net_articles
        {| query := delete "to" (query empty_cursor_request) |}.
Proof.
  split; [reflexivity|].
  exact (noticias_empty_to_is_absent Parameterised env_with_key net_articles
           empty_cursor_request eq_refl).
Defined.

(** ** What is written to the console *)

(** X6: the /noticias handlers write to the console exactly when they
    answer 500; a relayed answer leaves no line. *)
Theorem noticias_logs_iff_failure (v : variant) (env : gmap string string)
    (net : axios_request → settled) (req : express_request) :
  console (serve (noticias v) env net req) = []
  ↔ statusCode (res (serve (noticias v) env net req)) = 200.
Proof.
  rewrite serve_noticias.
  destruct (configured env);
    [destruct (outbound_request v env req) as [rq|]; [destruct (net rq)|]|];
    cbn; (split; [|discriminate || reflexivity]); try reflexivity;
    destruct v; discriminate.
Qed.



(** X8: with the key unset or empty, src/unnamed/part_000 files the failure
    under the label of a request that could not be set up: between its two
    marker lines it writes that label and the message of the thrown
    error. *)
Theorem parameterised_logs_missing_key (env : gmap string string)
    (net : axios_request → settled) (req : express_request) :
  env !! "GNEWS_API_KEY" = None ∨ env !! "GNEWS_API_KEY" = Some "" →
  console (serve RoutesParams.noticias env net req)
  = [[VStr "--- INÍCIO DO ERRO DETALHADO DO AXIOS ---"];
     [VStr "Erro ao configurar o pedido para o GNews:";
      VStr "Chave da API de notícias não configurada no servidor."];
     [VStr "--- FIM DO ERRO DETALHADO DO AXIOS ---"]].
Proof.
  intros H. apply configured_false in H.
  rewrite (serve_noticias Parameterised), H. reflexivity.
Qed.

Lemma parameterised_logs_missing_key_witness :
  ((∅ : gmap string string) !! "GNEWS_API_KEY" = None
   ∨ (∅ : gmap string string) !! "GNEWS_API_KEY" = Some "")
  ∧ console (serve RoutesParams.noticias ∅ net_articles paged_request)
    = [[VStr "--- INÍCIO DO ERRO DETALHADO DO AXIOS ---"];
       [VStr "Erro ao configurar o pedido para o GNews:";
        VStr "Chave da API de notícias não configurada no servidor."];
       [VStr "--- FIM DO ERRO DETALHADO DO AXIOS ---"]].
Proof.
  split; [left; reflexivity|].
  apply (parameterised_logs_missing_key ∅ net_articles paged_request).
  left; reflexivity.
Defined.

(** X9: for a rejected call src/unnamed/part_000 logs one of three things
    between its marker lines, by what the error carries: data, status and
    headers of the upstream answer when there is one (and then neither the
    request nor the message); else the request when there is one; else the
    message. *)
Theorem parameterised_logs_by_category (env : gmap string string)
    (net : axios_request → settled) (req : express_request)
    (rq : axios_request) (e : js_error) :
  configured env = true →
  outbound_request Parameterised env req = Some rq →
  net rq = Rejected e →
  ∃ detail,
    console (serve RoutesParams.noticias env net req)
    = [VStr "--- INÍCIO DO ERRO DETALHADO DO AXIOS ---"] :: detail
      ++ [[VStr "--- FIM DO ERRO DETALHADO DO AXIOS ---"]]
    ∧ detail
      = match response e, request e with
        | Some r, _ => [[VStr "Dados da Resposta:"; data r];
                        [VStr "Status do Erro:"; VNum (status r)];
                        [VStr "Cabeçalhos da Resposta:"; headers r]]
        | None, Some q => [[VStr "Nenhuma resposta recebida do GNews:"; q]]
        | None, None => [[VStr "Erro ao configurar o pedido para o GNews:";
                          VStr (message e)]]
        end.
Proof.
  intros Hc Hr Hn. rewrite (serve_noticias Parameterised), Hc, Hr, Hn. cbn.
  eexists. split; [reflexivity|].
  destruct (response e); [reflexivity|]. destruct (request e); reflexivity.
Qed.

Lemma parameterised_logs_by_category_witness :
  configured env_with_key = true
  ∧ ∃ detail,
      console (serve RoutesParams.noticias env_with_key net_refused paged_request)
      = [VStr "--- INÍCIO DO ERRO DETALHADO DO AXIOS ---"] :: detail
        ++ [[VStr "--- FIM DO ERRO DETALHADO DO AXIOS ---"]]
      ∧ detail = [[VStr "Nenhuma resposta recebida do GNews:"; VObj []]].
Proof.
  split; [reflexivity|].
  exact (parameterised_logs_by_category env_with_key net_refused paged_request
           _ _ eq_refl (parameterised_request _ _) eq_refl).
Defined.

(** ** What the outbound call carries *)

(** X10: the [params] object a call of src/unnamed/part_000 carries has
    the configured key as [token] and no entries but [q], [country], [max],
    [token] and, for a truthy [req.query.to], [to]. *)
Theorem parameterised_params_keys (env : gmap string string)
    (net : axios_request → settled) (req : express_request)
    (r : axios_request) :
  In r (outbound (serve RoutesParams.noticias env net req)) →
  ∃ p, req_params r = Some p
       ∧ p !! "token" = Some (apiKey_of env)
       ∧ dom p = {[ "q"; "country"; "max"; "token" ]}
                 ∪ (if truthy (req_query req "to") then {[ "to" ]} else ∅).
Proof.
  rewrite (serve_noticias Parameterised), parameterised_request.
  destruct (configured env); [|intros []].
  intros H.
  assert (r = {| req_url := "https://gnews.io/api/v4/search";
                 req_params := Some (RoutesParams.params (apiKey_of env)
                                       (req_query req "to")) |}) as ->
    by (destruct (net _); destruct H as [<-|[]]; reflexivity).
  eexists. split; [reflexivity|]. split.
  - apply params_fixed.
  - unfold RoutesParams.params.
    destruct (truthy (req_query req "to")); cbv zeta;
      rewrite !dom_insert_L, dom_empty_L; set_solver.
Qed.

Lemma parameterised_params_keys_witness :
  ∃ p, req_params {| req_url := "https://gnews.io/api/v4/search";
                     req_params := Some (RoutesParams.params
                                           (apiKey_of env_with_key)
                                           (req_query paged_request "to")) |}
       = Some p
       ∧ p !! "token" = Some (apiKey_of env_with_key)
       ∧ dom p = {[ "q"; "country"; "max"; "token" ]}
                 ∪ (if truthy (req_query paged_request "to")
                    then {[ "to" ]} else ∅).
Proof.
  apply (parameterised_params_keys env_with_key net_articles paged_request).
  left. reflexivity.
Defined.

Section MoreCutting.

Variable c : ascii.

Lemma has_char_app (a b : string) :
  URL.has_char c (a +:+ b) = URL.has_char c a || URL.has_char c b.
Proof.
  induction a as [|x a IH]; simpl; [reflexivity|].
  rewrite IH. apply orb_assoc.
Qed.

Lemma before_app_cut (a b : string) :
  URL.has_char c a = true →
  URL.before c (a +:+ b) = URL.before c a.
Proof.
  induction a as [|x a IH]; simpl; [discriminate|].
  destruct (Ascii.eqb x c); [reflexivity|]. simpl.
  intros H. rewrite (IH H). reflexivity.
Qed.

Lemma split_on_whole (s : string) :
  URL.has_char c s = false → URL.split_on c s = [s].
Proof.
  induction s as [|x s IH]; simpl; [reflexivity|].
  intros H. apply orb_false_iff in H as [Hx Hs].
  rewrite Hx, (IH Hs). reflexivity.
Qed.

(** No piece of a cut string contains the separator. *)
Lemma split_on_pieces (s piece : string) :
  In piece (URL.split_on c s) → URL.has_char c piece = false.
Proof.
  revert piece. induction s as [|x s IH]; simpl; intros piece H.
  - destruct H as [<-|[]]. reflexivity.
  - destruct (Ascii.eqb x c) eqn:E.
    + destruct H as [<-|H]; [reflexivity|]. exact (IH _ H).
    + destruct (URL.split_on c s) as [|p ps] eqn:S.
      * destruct H as [<-|[]]. simpl. rewrite E. reflexivity.
      * destruct H as [<-|H].
        -- simpl. rewrite E. apply IH. left. reflexivity.
        -- apply IH. right. exact H.
Qed.

End MoreCutting.

(** The pairs of [token=k] for a key without [&]. *)
Lemma pairs_token (k : string) :
  URL.has_char URL.amp k = false →
  URL.pairs_of_query ("token=" +:+ k) = [("token", k)].
Proof.
  intros Hk. unfold URL.pairs_of_query.
  rewrite split_on_whole by (rewrite has_char_app, Hk; reflexivity).
  reflexivity.
Qed.

(** X11: for a key and a non-empty string cursor that contain neither [&]
    nor [#], the URL built in src/backend/routes/index.js reads back as
    exactly the five intended parameters, the cursor whole as [to] and the
    key as [token]. *)
Theorem interpolated_url_round_trip (k s : string) :
  s ≠ "" →
  URL.has_char URL.amp s = false → URL.has_char URL.hash s = false →
  URL.has_char URL.amp k = false → URL.has_char URL.hash k = false →
  URL.search_params <$> RoutesIndex.url (VStr k) (VStr s)
  = Some [("q", GNEWS_QUERY); ("country", "br"); ("max", "10"); ("to", s);
          ("token", k)].
Proof.
  intros Hs Hsa Hsh Hka Hkh.
  rewrite (url_strings k s Hs). cbn [fmap option_fmap option_map]. f_equal.
  rewrite search_params_cursor.
  rewrite (before_app URL.hash s) by exact Hsh.
  change (URL.before URL.hash (String URL.amp ("token=" +:+ k)))
    with (String URL.amp ("token=" +:+ URL.before URL.hash k)).
  rewrite (before_id _ _ Hkh).
  unfold URL.pairs_of_query.
  change ("to=" +:+ s +:+ String URL.amp ("token=" +:+ k))
    with (("to=" +:+ s) +:+ String URL.amp ("token=" +:+ k)).
  rewrite split_on_app_sep by (rewrite has_char_app, Hsa; reflexivity).
  rewrite split_on_whole by (rewrite has_char_app, Hka; reflexivity).
  reflexivity.
Qed.

Lemma interpolated_url_round_trip_witness :
  URL.search_params
    <$> RoutesIndex.url (VStr "secret") (VStr "2024-01-15T00:00:00Z")
  = Some [("q", GNEWS_QUERY); ("country", "br"); ("max", "10");
          ("to", "2024-01-15T00:00:00Z"); ("token", "secret")].
Proof.
  apply (interpolated_url_round_trip "secret" "2024-01-15T00:00:00Z");
    [discriminate|reflexivity..].
Defined.

(** X12: without a truthy cursor and for a key without [&] and [#], the
    URL built in src/backend/routes/index.js reads back as [q], [country],
    [max] and [token], with no [to] at all. *)
Theorem interpolated_url_no_cursor (k : string) (lastPublishedAt : value) :
  truthy lastPublishedAt = false →
  URL.has_char URL.amp k = false → URL.has_char URL.hash k = false →
  ∃ u, RoutesIndex.url (VStr k) lastPublishedAt = Some u
       ∧ URL.search_params u
         = [("q", GNEWS_QUERY); ("country", "br"); ("max", "10"); ("token", k)]
       ∧ URL.get "to" (URL.search_params u) = None.
Proof.
  intros Ht Hka Hkh.
  eexists. split; [exact (url_no_cursor k lastPublishedAt Ht)|].
  rewrite search_params_no_cursor.
  rewrite (before_id _ _ Hkh), (pairs_token k Hka).
  split; reflexivity.
Qed.

Lemma interpolated_url_no_cursor_witness :
  ∃ u, RoutesIndex.url (VStr "secret") VUndefined = Some u
       ∧ URL.search_params u
         = [("q", GNEWS_QUERY); ("country", "br"); ("max", "10");
            ("token", "secret")]
       ∧ URL.get "to" (URL.search_params u) = None.
Proof.
  apply (interpolated_url_no_cursor "secret" VUndefined); reflexivity.
Defined.

(** X13: a string cursor that contains [#] cuts the key off the URL built
    in src/backend/routes/index.js: what the receiving side reads is the
    same for every key, so the configured token does not reach it. *)
Theorem interpolated_hash_drops_key (k k' s : string) :
  URL.has_char URL.hash s = true →
  ∃ pairs,
    URL.search_params <$> RoutesIndex.url (VStr k) (VStr s) = Some pairs
    ∧ URL.search_params <$> RoutesIndex.url (VStr k') (VStr s) = Some pairs.
Proof.
  intros Hs.
  assert (Hne : s ≠ "") by (intros ->; discriminate).
  rewrite !(url_strings _ s Hne). cbn [fmap option_fmap option_map].
  eexists. split; [reflexivity|]. f_equal.
  rewrite !search_params_cursor, !before_app_cut by exact Hs. reflexivity.
Qed.

Lemma interpolated_hash_drops_key_witness :
  URL.has_char URL.hash "2024#" = true
  ∧ ∃ pairs,
      URL.search_params <$> RoutesIndex.url (VStr "secret") (VStr "2024#")
      = Some pairs
      ∧ URL.search_params <$> RoutesIndex.url (VStr "") (VStr "2024#")
        = Some pairs.
Proof.
  split; [reflexivity|].
  exact (interpolated_hash_drops_key "secret" "" "2024#" eq_refl).
Defined.

(** X14: a cursor that Express parsed into an object without an own
    [toString] ([?to[a]=b]) is truthy; src/backend/routes/index.js then
    sends [to=[object Object]] whatever else the object holds, while
    src/unnamed/part_000 puts the object itself into [params]. *)
Theorem object_cursor (k : string) (o : list (string * value)) :
  has_own "toString" o = false →
  RoutesIndex.url (VStr k) (VObj o)
  = Some ("https://gnews.io/api/v4/search?q=" +:+ GNEWS_QUERY
          +:+ "&country=br&max=10" +:+ "&to=[object Object]"
          +:+ "&token=" +:+ k)
  ∧ RoutesIndex.url (VStr k) (VObj o)
      ≫= (λ u, URL.get "to" (URL.search_params u))
    = Some "[object Object]"
  ∧ RoutesParams.params (VStr k) (VObj o) !! "to" = Some (VObj o).
Proof.
  intros Hown.
  assert (Hu : RoutesIndex.url (VStr k) (VObj o)
               = Some (RoutesIndex.url_text "&to=[object Object]" k)).
  { unfold RoutesIndex.url, RoutesIndex.dateFilter. cbn. rewrite Hown.
    reflexivity. }
  split; [exact Hu|]. split.
  - rewrite Hu. cbn. apply (url_to_param "[object Object]" k).
  - rewrite params_to. reflexivity.
Qed.

Lemma object_cursor_witness :
  has_own "toString" [("a", VStr "b")] = false
  ∧ RoutesIndex.url (VStr "secret") (VObj [("a", VStr "b")])
      ≫= (λ u, URL.get "to" (URL.search_params u))
    = Some "[object Object]".
Proof.
  split; [reflexivity|].
  exact (proj1 (proj2 (object_cursor "secret" [("a", VStr "b")] eq_refl))).
Defined.

(** X18: a cursor that Express parsed into an object with an own property
    [toString] ([?to[toString]=x]) cannot be interpolated: with the key
    configured, src/backend/routes/index.js answers 500 with the fixed
    body, calls nothing and logs the message of the TypeError, while
    src/unnamed/part_000 makes its call with the object as [params.to]. *)
Theorem shadowed_toString_cursor (env : gmap string string)
    (net : axios_request → settled) (req : express_request)
    (o : list (string * value)) :
  configured env = true →
  query req !! "to" = Some (VObj o) →
  has_own "toString" o = true →
  res (serve RoutesIndex.noticias env net req) = failure_response
  ∧ outbound (serve RoutesIndex.noticias env net req) = []
  ∧ console (serve RoutesIndex.noticias env net req)
    = [[VStr "Erro ao buscar notícias do GNews:";
        VStr "Cannot convert object to primitive value"]]
  ∧ outbound (serve RoutesParams.noticias env net req)
    = [{| req_url := "https://gnews.io/api/v4/search";
          req_params := Some (<["to" := VObj o]>
                                (RoutesParams.params (apiKey_of env)
                                   VUndefined)) |}].
Proof.
  intros Hc Hq Hown.
  assert (Hto : req_query req "to" = VObj o)
    by (unfold req_query; rewrite Hq; reflexivity).
  assert (Hnone : outbound_request Interpolated env req = None).
  { unfold outbound_request, RoutesIndex.url, RoutesIndex.dateFilter.
    rewrite Hto. cbn. rewrite Hown. reflexivity. }
  rewrite (serve_noticias Interpolated), (serve_noticias Parameterised).
  rewrite Hc, Hnone, parameterised_request, Hto.
  repeat split. destruct (net _); reflexivity.
Qed.

Lemma shadowed_toString_cursor_witness :
  configured env_with_key = true
  ∧ query shadowed_request !! "to" = Some (VObj [("toString", VStr "x")])
  ∧ res (serve RoutesIndex.noticias env_with_key net_articles shadowed_request)
    = failure_response
  ∧ outbound (serve RoutesIndex.noticias env_with_key net_articles
                shadowed_request) = [].
Proof.
  split; [reflexivity|]. split; [reflexivity|].
  pose proof (shadowed_toString_cursor env_with_key net_articles
                shadowed_request [("toString", VStr "x")]
                eq_refl eq_refl eq_refl) as [H1 [H2 _]].
  split; assumption.
Defined.

(** * Properties of the route table *)

Lemma matches_path_key (pattern path k : string) :
  Router.literal_key pattern = Some k →
  Router.matches pattern path = true →
  Router.path_key path = Some k.
Proof.
  unfold Router.literal_key, Router.matches, Router.path_key.
  destruct (URL.split_on Router.slash pattern) as [|first [|lit rest]];
    try discriminate.
  destruct (String.eqb first "" && negb (Router.is_param lit)) eqn:E;
    [|discriminate].
  intros [= <-].
  apply andb_true_iff in E as [_ Hlit]. apply negb_true_iff in Hlit.
  destruct (URL.split_on Router.slash path) as [|a [|b r]]; simpl.
  - discriminate.
  - rewrite andb_false_r. discriminate.
  - intros H. apply andb_true_iff in H as [_ H].
    apply andb_true_iff in H as [H _].
    unfold Router.piece_matches in H. rewrite Hlit in H.
    apply String.eqb_eq in H. rewrite H. reflexivity.
Qed.

(** Every registered pattern starts with a literal piece, and no two
    patterns start with the same one. *)
Lemma router_keys :
  Forall (λ r, is_Some (Router.literal_key (fst r))) Router.router
  ∧ NoDup (map (λ r, Router.literal_key (fst r)) Router.router).
Proof.
  split.
  - repeat constructor; eexists; reflexivity.
  - apply (bool_decide_unpack _). vm_compute. exact I.
Qed.

Lemma NoDup_map_inj {A B : Type} (f : A → B) (l : list A) (x y : A) :
  NoDup (map f l) → In x l → In y l → f x = f y → x = y.
Proof.
  induction l as [|a l IH]; [intros _ []|].
  cbn. intros Hnd Hx Hy Hf. apply NoDup_cons in Hnd as [Ha Hnd].
  destruct Hx as [->|Hx], Hy as [->|Hy].
  - reflexivity.
  - exfalso. apply Ha. rewrite Hf. apply list_elem_of_In, in_map, Hy.
  - exfalso. apply Ha. rewrite <- Hf. apply list_elem_of_In, in_map, Hx.
  - exact (IH Hnd Hx Hy Hf).
Qed.

(** X15: no request path matches two registered routes, so the order of
    the [router.get] calls decides nothing. *)
Theorem routes_unambiguous (path : string) (r1 r2 : string * Router.target) :
  In r1 Router.router → In r2 Router.router →
  Router.matches (fst r1) path = true →
  Router.matches (fst r2) path = true →
  r1 = r2.
Proof.
  intros H1 H2 M1 M2.
  destruct router_keys as [Hsome Hnd].
  rewrite Forall_forall in Hsome.
  destruct (Hsome r1 (proj2 (list_elem_of_In _ _) H1)) as [k1 K1].
  destruct (Hsome r2 (proj2 (list_elem_of_In _ _) H2)) as [k2 K2].
  pose proof (matches_path_key _ _ _ K1 M1) as P1.
  pose proof (matches_path_key _ _ _ K2 M2) as P2.
  apply (NoDup_map_inj (λ r, Router.literal_key (fst r)) Router.router);
    try assumption.
  cbv beta. congruence.
Qed.

Lemma routes_unambiguous_witness :
  Router.matches "/focusRegionYear/:year" "/focusregionyear/2020/" = true
  ∧ ("/focusRegionYear/:year", Router.Controller "getFocusByRegion")
    = ("/focusRegionYear/:year", Router.Controller "getFocusByRegion").
Proof.
  split; [reflexivity|].
  apply (routes_unambiguous "/focusregionyear/2020/"
           ("/focusRegionYear/:year", Router.Controller "getFocusByRegion")
           ("/focusRegionYear/:year", Router.Controller "getFocusByRegion"));
    try reflexivity; do 4 right; left; reflexivity.
Defined.

(** The handler that runs for a path is the target of the one pattern
    that matches it. *)
Lemma dispatch_iff_matches (path : string) (t : Router.target) :
  Router.dispatch path = Some t
  ↔ ∃ pattern, In (pattern, t) Router.router
               ∧ Router.matches pattern path = true.
Proof.
  unfold Router.dispatch. split.
  - destruct (List.find _ Router.router) as [[pattern t']|] eqn:F;
      [|discriminate].
    intros [= <-]. apply find_some in F as [Hin Hm].
    exists pattern. split; assumption.
  - intros [pattern [Hin Hm]].
    destruct (List.find _ Router.router) as [r|] eqn:F.
    + apply find_some in F as [Hin' Hm'].
      rewrite (routes_unambiguous path r (pattern, t) Hin' Hin Hm' Hm).
      reflexivity.
    + pose proof (find_none _ _ F _ Hin) as Hno.
      change (Router.matches pattern path = false) in Hno. congruence.
Qed.

(** Cutting a slash-joined list of slash-free pieces gives the pieces. *)
Lemma split_on_join (c : ascii) (pieces : list string) :
  pieces ≠ [] →
  Forall (λ s, URL.has_char c s = false) pieces →
  URL.split_on c (join (String c "") pieces) = pieces.
Proof.
  induction pieces as [|s [|s' r] IH]; [congruence| |]; intros _ Hall.
  - apply Forall_cons in Hall as [Hs _]. cbn. apply split_on_whole, Hs.
  - apply Forall_cons in Hall as [Hs Hall].
    change (join (String c "") (s :: s' :: r))
      with (s +:+ String c (join (String c "") (s' :: r))).
    rewrite split_on_app_sep by exact Hs.
    rewrite IH; [reflexivity|discriminate|exact Hall].
Qed.

Lemma fits_pieces_match (pat pieces : list string) :
  Forall2 Router.fits pat pieces →
  Router.pieces_match pat pieces = true.
Proof.
  induction 1 as [|p s pat pieces Hfit _ IH]; [reflexivity|].
  cbn. rewrite IH, andb_true_r.
  unfold Router.fits in Hfit. unfold Router.piece_matches.
  destruct (Router.is_param p).
  - destruct Hfit as (Hne & _ & ->). destruct s; [congruence|reflexivity].
  - subst s. apply String.eqb_refl.
Qed.

Lemma fits_slash_free (pattern : string) (pieces : list string) :
  Forall2 Router.fits (URL.split_on Router.slash pattern) pieces →
  Forall (λ s, URL.has_char Router.slash s = false) pieces.
Proof.
  pose proof (split_on_pieces Router.slash pattern) as Hfree.
  revert Hfree.
  generalize (URL.split_on Router.slash pattern). intros pat Hfree H.
  induction H as [|p s pat pieces Hfit _ IH]; constructor.
  - unfold Router.fits in Hfit. destruct (Router.is_param p).
    + apply Hfit.
    + subst s. apply Hfree. left. reflexivity.
  - apply IH. intros piece Hin. apply Hfree. right. exact Hin.
Qed.

(** X17: a path made by filling the parameters of a registered pattern
    with non-empty pieces without slash that [decodeURIComponent] accepts,
    its other pieces kept, reaches the target that pattern is bound to. *)
Theorem filled_pattern_is_dispatched (pattern : string) (t : Router.target)
    (pieces : list string) :
  In (pattern, t) Router.router →
  Forall2 Router.fits (URL.split_on Router.slash pattern) pieces →
  Router.dispatch (join "/" pieces) = Some t.
Proof.
  intros Hin Hfit. apply dispatch_iff_matches.
  exists pattern. split; [exact Hin|].
  unfold Router.matches.
  change "/" with (String Router.slash "").
  rewrite split_on_join.
  - apply fits_pieces_match, Hfit.
  - intros ->. inversion Hfit as [Hnil|]. clear Hfit Hin.
    destruct pattern as [|a pattern]; [discriminate|]. cbn in Hnil.
    destruct (Ascii.eqb a Router.slash); [discriminate|].
    destruct (URL.split_on Router.slash pattern); discriminate.
  - apply (fits_slash_free pattern), Hfit.
Qed.

Lemma filled_pattern_is_dispatched_witness :
  Router.dispatch (join "/" [""; "focusEstateMonthYear"; "08"; "2024"])
  = Some (Router.Controller "getMonthlyFocusByEstate").
Proof.
  apply (filled_pattern_is_dispatched "/focusEstateMonthYear/:month/:year").
  - do 2 right. left. reflexivity.
  - change (URL.split_on Router.slash "/focusEstateMonthYear/:month/:year")
      with [""; "focusEstateMonthYear"; ":month"; ":year"].
    constructor; [reflexivity|].
    constructor; [reflexivity|].
    constructor; [repeat split; discriminate || reflexivity|].
    constructor; [repeat split; discriminate || reflexivity|].
    constructor.
Defined.
